(** * Voronoi-diagram graph types of OpenCAMlib

    A shallow embedding of [src/voronoi/voronoidiagram_graph.hpp]: the
    half-edge property record [EdgeProps], the face property record
    [FaceProps] with its status enumeration and its sorting operator, and the
    handle types [HEEdge] and [HEFace].

    The header only declares data; the graph container (halfedgediagram.hpp),
    the vertex record (voronoivertex.hpp), the point class (point.hpp) and the
    diagram algorithm are other files.  What those files provide is either a
    variable of the section below (types) or a definition whose comment starts
    with "Modelled from the spec:" (operations). *)

From stdpp Require Import gmap.

(** ** Handles and enumerations *)

(** [typedef unsigned int HEFace;] (line 93).  A face handle is a bare
    unsigned integer.  The header does no arithmetic on it; the only
    operations used are equality and the unsigned comparison [<], which on
    the values [0 .. 2^32-1] are those of [N]. *)
Definition HEFace : Type := N.

#[global] Instance HEFace_eq_dec : EqDecision HEFace := N.eq_dec.
#[global] Instance HEFace_countable : Countable HEFace := N_countable.
#[global] Instance HEFace_infinite : Infinite HEFace := N_infinite.

(** [enum VoronoiFaceStatus {INCIDENT, NONINCIDENT};] (line 120). *)
Inductive VoronoiFaceStatus : Type :=
| INCIDENT
| NONINCIDENT.

#[global] Instance VoronoiFaceStatus_eq_dec : EqDecision VoronoiFaceStatus.
Proof. solve_decision. Defined.

(** ** Edge types and the generator classifier *)

(** The edge types of the header's notes: E1-E4 (lines 56-60) for point and
    segment diagrams and E5-E10 (lines 186-199) for diagrams with arcs.  The
    header lists them in comments only. *)
Inductive EdgeType : Type :=
| E1 | E2 | E3 | E4 | E5 | E6 | E7 | E8 | E9 | E10.

#[global] Instance EdgeType_eq_dec : EqDecision EdgeType.
Proof. solve_decision. Defined.

(** Modelled from the spec: the error kinds of section 7; no error type is
    declared in the header. *)
Inductive Error : Type :=
| DegenerateInputError
| UnsupportedGeneratorPairError
| NumericalPrecisionError
| TopologyInvariantViolation.

(** Modelled from the spec: section 7, "the first three are recoverable at
    the call boundary"; a [TopologyInvariantViolation] is fatal. *)
Definition recoverable (err : Error) : bool :=
  match err with
  | TopologyInvariantViolation => false
  | _ => true
  end.

(** Modelled from the spec: the generator kinds that the table of section 4.2
    distinguishes.  [classifyEdge] is no function of this header; the kinds
    are the words of the table's rows: a point, a segment met in its interior
    or at an endpoint or crossing an arc's circle, a point inside or outside
    an arc's circle, an arc nested in, crossing or disjoint from another. *)
Inductive GeneratorKind : Type :=
| PointKind
| PointInside
| PointOutside
| SegmentKind
| SegmentInterior
| SegmentEndpoint
| SegmentCrossing
| ArcKind
| ArcNested
| ArcCrossingOrDisjoint.

(** Modelled from the spec: [classifyEdge(generatorKindA, generatorKindB)] of
    section 4.2, the closed table; a pair outside it is an
    [UnsupportedGeneratorPairError]. *)
Definition classifyEdge (generatorKindA generatorKindB : GeneratorKind)
  : Error + EdgeType :=
  match generatorKindA, generatorKindB with
  | PointKind, PointKind => inr E1
  | PointKind, SegmentInterior => inr E3
  | PointKind, SegmentEndpoint => inr E2
  | SegmentKind, SegmentKind => inr E4
  | ArcKind, PointInside => inr E5
  | ArcKind, PointOutside => inr E6
  | ArcKind, SegmentEndpoint => inr E7
  | ArcKind, SegmentCrossing => inr E8
  | ArcKind, ArcNested => inr E9
  | ArcKind, ArcCrossingOrDisjoint => inr E10
  | _, _ => inl UnsupportedGeneratorPairError
  end.

(** ** The arena of the spec *)

(** Modelled from the spec: the handle of section 9, an integer index into an
    arena tagged with the generation of the slot it was made for. *)
Record TaggedHandle : Type := mkTaggedHandle {
  slot_index : N;
  generation : N
}.

(** Modelled from the spec: a slot of the arena of sections 4.1 and 9, which
    is no part of this header.  A slot keeps the generation it is in and, while
    it is allocated, a record.  The spec gives the counter no width; it is
    unbounded here. *)
Record Slot (T : Type) : Type := mkSlot {
  slot_generation : N;
  slot_record : option T
}.

Arguments mkSlot {T} _ _.
Arguments slot_generation {T} _.
Arguments slot_record {T} _.

(** Modelled from the spec: reading a record through a handle, "detected via
    generation-tagged handles": the handle is valid when its slot exists, is
    in the handle's generation and holds a record; otherwise the use is
    detected ([None]). *)
Definition arena_get {T : Type} (h : TaggedHandle) (a : list (Slot T)) : option T :=
  match a !! N.to_nat (slot_index h) with
  | Some s =>
      if decide (slot_generation s = generation h) then slot_record s else None
  | None => None
  end.

(** Modelled from the spec: the allocation behind [addVertex], [addEdgePair]
    and the new face of section 4.3: the first free slot is reused in the
    generation it is in, and the arena grows by a slot of generation 0 when
    none is free. *)
Definition arena_alloc {T : Type} (v : T) (a : list (Slot T))
  : TaggedHandle * list (Slot T) :=
  match list_find (fun s => slot_record s = None) a with
  | Some (i, s) =>
      (mkTaggedHandle (N.of_nat i) (slot_generation s),
       <[ i := mkSlot (slot_generation s) (Some v) ]> a)
  | None =>
      (mkTaggedHandle (N.of_nat (length a)) 0, a ++ [mkSlot 0%N (Some v)])
  end.

(** Modelled from the spec: the deallocation behind [removeVertex],
    [removeFace] and, for an edge and for its twin, [removeEdgePair]
    (section 4.1, "deallocate arena slots; handles become invalid").  The slot
    is emptied and moves to the next generation; a handle that is not valid
    is detected ([None]). *)
Definition arena_remove {T : Type} (h : TaggedHandle) (a : list (Slot T))
  : option (list (Slot T)) :=
  match arena_get h a with
  | Some _ =>
      Some (<[ N.to_nat (slot_index h) := mkSlot (N.succ (generation h)) None ]> a)
  | None => None
  end.

(** Modelled from the spec: a mutator such as [setNext] or [setFace]
    (section 4.1, "no validation beyond handle liveness"): the record of a
    valid handle is replaced, its slot stays in its generation. *)
Definition arena_update {T : Type} (h : TaggedHandle) (f : T -> T)
  (a : list (Slot T)) : option (list (Slot T)) :=
  match arena_get h a with
  | Some v =>
      Some (<[ N.to_nat (slot_index h) := mkSlot (generation h) (Some (f v)) ]> a)
  | None => None
  end.

(** The requests an arena serves, and an arena after a sequence of them; a
    request with a handle that is not valid is detected and changes
    nothing. *)
Inductive ArenaOp (T : Type) : Type :=
| ArenaAlloc (v : T)
| ArenaRemove (h : TaggedHandle)
| ArenaUpdate (h : TaggedHandle) (f : T -> T).

Arguments ArenaAlloc {T} _.
Arguments ArenaRemove {T} _.
Arguments ArenaUpdate {T} _ _.

Definition arena_step {T : Type} (op : ArenaOp T) (a : list (Slot T))
  : list (Slot T) :=
  match op with
  | ArenaAlloc v => snd (arena_alloc v a)
  | ArenaRemove h => default a (arena_remove h a)
  | ArenaUpdate h f => default a (arena_update h f a)
  end.

Fixpoint arena_run {T : Type} (ops : list (ArenaOp T)) (a : list (Slot T))
  : list (Slot T) :=
  match ops with
  | [] => a
  | op :: rest => arena_run rest (arena_step op a)
  end.

(** A handle is outdated when its slot has moved past the handle's
    generation. *)
Definition outdated {T : Type} (h : TaggedHandle) (a : list (Slot T)) : Prop :=
  exists s, a !! N.to_nat (slot_index h) = Some s /\
            (generation h < slot_generation s)%N.

(** ** Default construction *)

(** The value of a default-constructed object of a class type.  [HEEdge] is
    such a type: a member of type [HEEdge] that a constructor does not
    initialise is default-constructed before the constructor's body runs.
    The graph library's edge descriptor default-constructs with a null
    property pointer and descriptors are compared by that pointer alone, so
    the default-constructed descriptor is the null descriptor, the descriptor
    of no edge. *)
Class DefaultConstructed (T : Type) : Type := default_constructed : T.

Section voronoidiagram_graph.

(** [HEEdge] is the edge descriptor of a boost adjacency list (lines 89-92),
    [Point] the class of point.hpp and [VoronoiGeneratorPtr] the pointer type
    [VoronoiGenerator*].  None of them is declared in this header, so they
    are parameters; edge descriptors can be compared for equality and the
    container can always make a new one. *)
Context {HEEdge : Type} `{Countable HEEdge} `{Infinite HEEdge}.
Context `{DefaultConstructed HEEdge}.
Context {Point : Type}.
Context {VoronoiGeneratorPtr : Type}.

(** ** [struct EdgeProps] (lines 99-117) *)

Record EdgeProps : Type := mkEdgeProps {
  next : HEEdge;  (* the next edge, counterclockwise, from this edge *)
  twin : HEEdge;  (* the twin edge *)
  face : HEFace   (* the face to which this edge belongs *)
}.

(** Member assignments [next = n;], [twin = t;], [face = f;]. *)
Definition assign_next (n : HEEdge) (this : EdgeProps) : EdgeProps :=
  mkEdgeProps n (twin this) (face this).
Definition assign_twin (t : HEEdge) (this : EdgeProps) : EdgeProps :=
  mkEdgeProps (next this) t (face this).
Definition assign_face (f : HEFace) (this : EdgeProps) : EdgeProps :=
  mkEdgeProps (next this) (twin this) f.

(** The constructors run on the storage [this] of the object under
    construction.  No member has an initialiser.  The members [next] and
    [twin] are of the class type [HEEdge] and are default-constructed before
    the body runs; [face] is an [unsigned int] and keeps whatever the storage
    held until the body assigns it. *)

(** [EdgeProps() {}] (line 100): the body assigns nothing. *)
Definition EdgeProps_default (this : EdgeProps) : EdgeProps :=
  mkEdgeProps default_constructed default_constructed (face this).

(** [EdgeProps(HEEdge n, HEFace f) { next = n; face = f; }] (lines 101-104). *)
Definition EdgeProps_next_face (n : HEEdge) (f : HEFace) (this : EdgeProps)
  : EdgeProps :=
  assign_face f (assign_next n (EdgeProps_default this)).

(** [EdgeProps(HEEdge n, HEEdge t, HEFace f) { next = n; twin = t; face = f; }]
    (lines 106-110).  The body assigns all three members, so nothing of
    their default construction or of the storage is left. *)
Definition EdgeProps_next_twin_face (n t : HEEdge) (f : HEFace)
  (this : EdgeProps) : EdgeProps :=
  assign_face f (assign_twin t (assign_next n this)).

(** ** [struct FaceProps] (lines 124-142) *)

Record FaceProps : Type := mkFaceProps {
  idx : HEFace;                 (* face index *)
  edge : HEEdge;                (* one edge that bounds this face *)
  generator : Point;            (* the generator for this face *)
  gen : VoronoiGeneratorPtr;    (* VoronoiGenerator* gen *)
  status : VoronoiFaceStatus    (* face status *)
}.

Definition assign_idx (i : HEFace) (this : FaceProps) : FaceProps :=
  mkFaceProps i (edge this) (generator this) (gen this) (status this).
Definition assign_edge (e : HEEdge) (this : FaceProps) : FaceProps :=
  mkFaceProps (idx this) e (generator this) (gen this) (status this).
Definition assign_generator (p : Point) (this : FaceProps) : FaceProps :=
  mkFaceProps (idx this) (edge this) p (gen this) (status this).
Definition assign_status (t : VoronoiFaceStatus) (this : FaceProps) : FaceProps :=
  mkFaceProps (idx this) (edge this) (generator this) (gen this) t.

(** [FaceProps(HEEdge e, Point gen, VoronoiFaceStatus t)
       { edge = e; generator = gen; status = t; }] (lines 126-130).
    The parameter named [gen] is the point; the member [gen] is not assigned. *)
Definition FaceProps_edge_generator_status (e : HEEdge) (p : Point)
  (t : VoronoiFaceStatus) (this : FaceProps) : FaceProps :=
  assign_status t (assign_generator p (assign_edge e this)).

(** [bool operator<(const FaceProps& f) const { return (this->idx < f.idx); }]
    (line 132). *)
Definition FaceProps_lt (this f : FaceProps) : bool :=
  (idx this <? idx f)%N.

(** ** The edge property map *)

(** [g[e]] reads the bundled properties of edge [e]; the twin of [e] is the
    [twin] member of that record. *)
Definition twin_of (es : gmap HEEdge EdgeProps) (e : HEEdge) : option HEEdge :=
  twin <$> es !! e.

(** Twin symmetry of an edge property map: the twin of every live edge is
    live and its twin is the edge itself. *)
Definition twin_symmetric (es : gmap HEEdge EdgeProps) : Prop :=
  forall e, is_Some (es !! e) -> twin_of es e ≫= twin_of es = Some e.

(** ** Topology graph and incremental builder *)

(** [VoronoiVertex] (voronoivertex.hpp) and the vertex descriptor [HEVertex]
    (line 159) are declared elsewhere; [Scalar] is the number type of radii
    and angles. *)
Context {VoronoiVertex : Type}.
Context {HEVertex : Type} `{Countable HEVertex} `{Infinite HEVertex}.
Context {Scalar : Type}.

(** Modelled from the spec: the generator of section 3, "a tagged value -
    POINT(position), SEGMENT(endpoint pair), or ARC(center, radius, angular
    span)".  The header has no such type. *)
Inductive Generator : Type :=
| POINT (position : Point)
| SEGMENT (endpoints : Point * Point)
| ARC (center : Point) (radius : Scalar) (angular_span : Scalar * Scalar).

(** Modelled from the spec: the container [HEDIGraph] of halfedgediagram.hpp,
    which lines 147-155 instantiate as [HEGraph] with [VoronoiVertex],
    [EdgeProps] and [FaceProps]; the container itself is another file.  Per
    sections 2 and 4.1 it is an arena of vertex, half-edge and face records:
    one finite map per kind, from live handles to the records of this
    header. *)
Record HEGraph : Type := mkHEGraph {
  vertices : gmap HEVertex VoronoiVertex;
  edges : gmap HEEdge EdgeProps;
  faces : gmap HEFace FaceProps
}.

Definition empty_graph : HEGraph := mkHEGraph ∅ ∅ ∅.

Definition with_vertices (vs : gmap HEVertex VoronoiVertex) (g : HEGraph) : HEGraph :=
  mkHEGraph vs (edges g) (faces g).
Definition with_edges (es : gmap HEEdge EdgeProps) (g : HEGraph) : HEGraph :=
  mkHEGraph (vertices g) es (faces g).
Definition with_faces (fs : gmap HEFace FaceProps) (g : HEGraph) : HEGraph :=
  mkHEGraph (vertices g) (edges g) fs.

(** A topology operation either fails or returns a result and the mutated
    graph. *)
Definition Topology (R : Type) : Type := HEGraph -> Error + R * HEGraph.

(** Modelled from the spec: [addVertex] of section 4.1, "allocates a vertex
    record in the arena". *)
Definition addVertex (v : VoronoiVertex) : Topology HEVertex := fun g =>
  let h := fresh (dom (vertices g)) in
  inr (h, with_vertices (<[h := v]> (vertices g)) g).

(** Modelled from the spec: [addEdgePair(faceA, faceB)] of section 4.1,
    "allocates two twinned half-edges"; "caller must subsequently set next
    links".  [slotA] and [slotB] are the storage the arena hands out: each
    record gets its twin and face, and its [next] is left as found. *)
Definition addEdgePair (faceA faceB : HEFace) (slotA slotB : EdgeProps)
  : Topology (HEEdge * HEEdge) := fun g =>
  let e1 := fresh (dom (edges g)) in
  let e2 := fresh ({[e1]} ∪ dom (edges g)) in
  let p1 := assign_face faceA (assign_twin e2 slotA) in
  let p2 := assign_face faceB (assign_twin e1 slotB) in
  inr ((e1, e2), with_edges (<[e2 := p2]> (<[e1 := p1]> (edges g))) g).

(** Modelled from the spec: the allocation of a face in step 5 of section
    4.3, with the constructor of [FaceProps]; the record's [idx] is its
    handle. *)
Definition addFace (e : HEEdge) (p : Point) (t : VoronoiFaceStatus)
  (slot : FaceProps) : Topology HEFace := fun g =>
  let h := fresh (dom (faces g)) in
  let r := assign_idx h (FaceProps_edge_generator_status e p t slot) in
  inr (h, with_faces (<[h := r]> (faces g)) g).

(** Modelled from the spec: [setNext(edge, next)] and [setFace(edge, face)]
    of section 4.1, "structural mutators; no validation beyond handle
    liveness".  The use of a handle that is not live is a defect of the
    caller and is reported as a [TopologyInvariantViolation]. *)
Definition setNext (e n : HEEdge) : Topology unit := fun g =>
  match edges g !! e, edges g !! n with
  | Some p, Some _ => inr (tt, with_edges (<[e := assign_next n p]> (edges g)) g)
  | _, _ => inl TopologyInvariantViolation
  end.

Definition setFace (e : HEEdge) (f : HEFace) : Topology unit := fun g =>
  match edges g !! e, faces g !! f with
  | Some p, Some _ => inr (tt, with_edges (<[e := assign_face f p]> (edges g)) g)
  | _, _ => inl TopologyInvariantViolation
  end.

(** Modelled from the spec: the marking of step 2 of section 4.3, "status
    INCIDENT is used only as the visited marker during this phase". *)
Definition setStatus (f : HEFace) (t : VoronoiFaceStatus) : Topology unit := fun g =>
  match faces g !! f with
  | Some r => inr (tt, with_faces (<[f := assign_status t r]> (faces g)) g)
  | None => inl TopologyInvariantViolation
  end.

(** Modelled from the spec: [removeEdgePair], [removeVertex] and [removeFace]
    of section 4.1, "deallocate arena slots"; "half-edges are always created
    and destroyed in twin pairs". *)
Definition removeEdgePair (e : HEEdge) : Topology unit := fun g =>
  match edges g !! e with
  | Some p => inr (tt, with_edges (delete (twin p) (delete e (edges g))) g)
  | None => inl TopologyInvariantViolation
  end.

Definition removeVertex (v : HEVertex) : Topology unit := fun g =>
  match vertices g !! v with
  | Some _ => inr (tt, with_vertices (delete v (vertices g)) g)
  | None => inl TopologyInvariantViolation
  end.

Definition removeFace (f : HEFace) : Topology unit := fun g =>
  match faces g !! f with
  | Some _ => inr (tt, with_faces (delete f (faces g)) g)
  | None => inl TopologyInvariantViolation
  end.

(** Modelled from the spec: the public contract of the topology graph
    (section 4.1) as the requests a builder can make, each with the type of
    its answer.  [Observe] reads the graph (the traversals and accessors). *)
Inductive TopologyOp : Type -> Type :=
| AddVertex (v : VoronoiVertex) : TopologyOp HEVertex
| AddEdgePair (faceA faceB : HEFace) (slotA slotB : EdgeProps)
    : TopologyOp (HEEdge * HEEdge)
| AddFace (e : HEEdge) (p : Point) (t : VoronoiFaceStatus) (slot : FaceProps)
    : TopologyOp HEFace
| SetNext (e n : HEEdge) : TopologyOp unit
| SetFace (e : HEEdge) (f : HEFace) : TopologyOp unit
| SetStatus (f : HEFace) (t : VoronoiFaceStatus) : TopologyOp unit
| RemoveEdgePair (e : HEEdge) : TopologyOp unit
| RemoveVertex (v : HEVertex) : TopologyOp unit
| RemoveFace (f : HEFace) : TopologyOp unit
| Observe : TopologyOp HEGraph.

Definition perform {R : Type} (op : TopologyOp R) : Topology R :=
  match op in TopologyOp R return Topology R with
  | AddVertex v => addVertex v
  | AddEdgePair faceA faceB slotA slotB => addEdgePair faceA faceB slotA slotB
  | AddFace e p t slot => addFace e p t slot
  | SetNext e n => setNext e n
  | SetFace e f => setFace e f
  | SetStatus f t => setStatus f t
  | RemoveEdgePair e => removeEdgePair e
  | RemoveVertex v => removeVertex v
  | RemoveFace f => removeFace f
  | Observe => fun g => inr (g, g)
  end.

(** Modelled from the spec: steps 1-5 of [insertGenerator] (section 4.3:
    locate, grow, collect, delete, stitch).  The algorithm is not in this
    header and section 9 leaves it open; what the spec fixes is that the builder works
    through the topology graph's operations and either returns the new face
    or surfaces an error.  A builder is therefore any program of that shape:
    each step's answer decides how it goes on. *)
Inductive Builder : Type :=
| Return (newFace : HEFace)
| Raise (err : Error)
| Call {R : Type} (op : TopologyOp R) (k : R -> Builder).

Fixpoint run (b : Builder) (g : HEGraph) : Error + HEFace * HEGraph :=
  match b with
  | Return newFace => inr (newFace, g)
  | Raise err => inl err
  | Call op k =>
      match perform op g with
      | inl err => inl err
      | inr (r, g') => run (k r) g'
      end
  end.

(** Modelled from the spec: step 6 of section 4.3, "reset all face statuses
    to NONINCIDENT". *)
Definition reset_status (g : HEGraph) : HEGraph :=
  with_faces (assign_status NONINCIDENT <$> faces g) g.

(** The outcome of one insertion: committed with the new face, rolled back
    with a recoverable error, or failed fatally, after which "callers should
    treat the diagram as corrupted" (section 7). *)
Inductive InsertResult : Type :=
| Committed (newFace : HEFace) (g : HEGraph)
| RolledBack (err : Error) (g : HEGraph)
| Corrupted (err : Error).

(** Modelled from the spec: [insertGenerator(graph, newGenerator)] of section
    4.3 with its step 6: on a recoverable error all mutations are discarded
    and the graph is the one before the call; otherwise the statuses are
    reset and the new face is returned.  [steps] is the builder's algorithm
    for a generator. *)
Definition insertGenerator (steps : Generator -> Builder) (graph : HEGraph)
  (newGenerator : Generator) : InsertResult :=
  match run (steps newGenerator) graph with
  | inr (newFace, g') => Committed newFace (reset_status g')
  | inl err => if recoverable err then RolledBack err graph else Corrupted err
  end.

(** The diagram after inserting generators one at a time, [None] once an
    insertion has corrupted it. *)
Fixpoint insertGenerators (steps : Generator -> Builder) (graph : HEGraph)
  (gens : list Generator) : option HEGraph :=
  match gens with
  | [] => Some graph
  | newGenerator :: rest =>
      match insertGenerator steps graph newGenerator with
      | Committed _ g' => insertGenerators steps g' rest
      | RolledBack _ g' => insertGenerators steps g' rest
      | Corrupted _ => None
      end
  end.

(** Every face of a face map has status NONINCIDENT. *)
Definition all_nonincident (fs : gmap HEFace FaceProps) : Prop :=
  forall f r, fs !! f = Some r -> status r = NONINCIDENT.

End voronoidiagram_graph.

(** * The header's types at concrete descriptors

    Edge and vertex descriptors and the generator pointer are addresses,
    points are coordinate triples; the storage handed to a constructor
    holds zeroes and the status INCIDENT. *)

Definition Coord : Type := (Z * Z * Z)%type.
Definition EdgePropsN : Type := EdgeProps (HEEdge := N).
Definition FacePropsN : Type :=
  FaceProps (HEEdge := N) (Point := Coord) (VoronoiGeneratorPtr := N).
Definition GeneratorN : Type := Generator (Point := Coord) (Scalar := Z).
Definition BuilderN : Type :=
  Builder (HEEdge := N) (Point := Coord) (VoronoiGeneratorPtr := N)
    (VoronoiVertex := Coord) (HEVertex := N).
Definition HEGraphN : Type :=
  HEGraph (HEEdge := N) (Point := Coord) (VoronoiGeneratorPtr := N)
    (VoronoiVertex := Coord) (HEVertex := N).

(** The null descriptor is the null address. *)
#[global] Instance N_default_constructed : DefaultConstructed N := 0%N.

Definition raw_edge : EdgePropsN := mkEdgeProps 0%N 0%N 0%N.
Definition raw_face : FacePropsN := mkFaceProps 0%N 0%N (0, 0, 0)%Z 0%N INCIDENT.

(** The reference point of a generator. *)
Definition reference_point (newGenerator : GeneratorN) : Coord :=
  match newGenerator with
  | POINT position => position
  | SEGMENT endpoints => fst endpoints
  | ARC center _ _ => center
  end.

(** A small builder: a face marked INCIDENT for the generator, bounded by one
    pair of half-edges that follow each other. *)
Definition two_edge_face (newGenerator : GeneratorN) : BuilderN :=
  Call (AddFace 0%N (reference_point newGenerator) INCIDENT raw_face) (fun f =>
  Call (AddEdgePair f f raw_edge raw_edge) (fun pair =>
  Call (SetNext (fst pair) (snd pair)) (fun _ =>
  Call (SetNext (snd pair) (fst pair)) (fun _ =>
  Return f)))).

(** A builder that starts like [two_edge_face] and then finds the input
    degenerate. *)
Definition degenerate_after_marking (newGenerator : GeneratorN) : BuilderN :=
  Call (AddFace 0%N (reference_point newGenerator) INCIDENT raw_face) (fun f =>
  Call (AddEdgePair f f raw_edge raw_edge) (fun _ =>
  Raise DegenerateInputError)).

(** Steps that build a face for a point or a segment and reject an arc. *)
Definition no_arcs (newGenerator : GeneratorN) : BuilderN :=
  match newGenerator with
  | ARC _ _ _ => degenerate_after_marking newGenerator
  | _ => two_edge_face newGenerator
  end.

Definition three_calls : list GeneratorN :=
  [POINT (1, 2, 0)%Z; ARC (0, 0, 0)%Z 0%Z (0, 0)%Z; POINT (5, 5, 0)%Z].

(** The diagram after two committed insertions with a rolled-back one in
    between. *)
Definition two_faces : option HEGraphN :=
  insertGenerators no_arcs empty_graph three_calls.

(** Two half-edges 0 and 1 of face 0, twins of each other. *)
Definition edge_pair : gmap N EdgePropsN :=
  <[ 1%N := EdgeProps_next_twin_face 0%N 0%N 0%N raw_edge ]>
    (<[ 0%N := EdgeProps_next_twin_face 1%N 1%N 0%N raw_edge ]> ∅).

(** Two half-edges 1 and 2 of face 0, twins of each other, at descriptors
    other than the null one. *)
Definition edge_pair_12 : gmap N EdgePropsN :=
  <[ 2%N := EdgeProps_next_twin_face 1%N 1%N 0%N raw_edge ]>
    (<[ 1%N := EdgeProps_next_twin_face 2%N 2%N 0%N raw_edge ]> ∅).

(** An arena of edge records in which the first slot was allocated and
    deallocated once, and the handle of that first allocation. *)
Definition first_handle : TaggedHandle :=
  fst (arena_alloc raw_edge ([] : list (Slot EdgePropsN))).

Definition used_once : list (Slot EdgePropsN) :=
  snd (arena_alloc raw_edge ([] : list (Slot EdgePropsN))).

(** * Properties *)

Section properties.

Context {HEEdge : Type} `{Countable HEEdge} `{Infinite HEEdge}.
Context `{DefaultConstructed HEEdge}.
Context {Point VoronoiGeneratorPtr VoronoiVertex Scalar : Type}.
Context {HEVertex : Type} `{Countable HEVertex} `{Infinite HEVertex}.

Local Abbreviation EdgeProps := (EdgeProps (HEEdge := HEEdge)).
Local Abbreviation FaceProps :=
  (FaceProps (HEEdge := HEEdge) (Point := Point)
     (VoronoiGeneratorPtr := VoronoiGeneratorPtr)).
Local Abbreviation Generator := (Generator (Point := Point) (Scalar := Scalar)).
Local Abbreviation HEGraph :=
  (HEGraph (HEEdge := HEEdge) (Point := Point)
     (VoronoiGeneratorPtr := VoronoiGeneratorPtr)
     (VoronoiVertex := VoronoiVertex) (HEVertex := HEVertex)).
Local Abbreviation Builder :=
  (Builder (HEEdge := HEEdge) (Point := Point)
     (VoronoiGeneratorPtr := VoronoiGeneratorPtr)
     (VoronoiVertex := VoronoiVertex) (HEVertex := HEVertex)).
Local Abbreviation TopologyOp :=
  (TopologyOp (HEEdge := HEEdge) (Point := Point)
     (VoronoiGeneratorPtr := VoronoiGeneratorPtr)
     (VoronoiVertex := VoronoiVertex) (HEVertex := HEVertex)).

(** ** The property records *)

Lemma EdgeProps_eta (p : EdgeProps) : p = mkEdgeProps (next p) (twin p) (face p).
Proof. by destruct p. Qed.

Lemma FaceProps_eta (r : FaceProps) :
  r = mkFaceProps (idx r) (edge r) (generator r) (gen r) (status r).
Proof. by destruct r. Qed.

Lemma twin_of_singleton (e : HEEdge) (p : EdgeProps) :
  twin_of {[ e := p ]} e = Some (twin p).
Proof. unfold twin_of. by rewrite lookup_singleton_eq. Qed.

Lemma twin_of_singleton_ne (e e' : HEEdge) (p : EdgeProps) :
  e <> e' -> twin_of {[ e := p ]} e' = None.
Proof. intros Hne. unfold twin_of. by rewrite lookup_singleton_ne. Qed.

(** A lone edge record whose twin member names another edge breaks twin
    symmetry. *)
Lemma lone_edge_not_symmetric (e : HEEdge) (p : EdgeProps) :
  twin p <> e -> ~ twin_symmetric {[ e := p ]}.
Proof.
  intros Hne Hsym.
  specialize (Hsym e). rewrite lookup_singleton_eq in Hsym.
  specialize (Hsym (mk_is_Some _ _ eq_refl)).
  rewrite twin_of_singleton in Hsym. simpl in Hsym.
  rewrite twin_of_singleton_ne in Hsym by congruence. discriminate.
Qed.

(** Some edge descriptor differs from [e]. *)
Lemma other_edge (e : HEEdge) : fresh ({[ e ]} : gset HEEdge) <> e.
Proof.
  intros Heq. apply (is_fresh ({[ e ]} : gset HEEdge)).
  rewrite Heq. by apply elem_of_singleton.
Qed.

(** C9: comparison of face records is comparison of their [idx] members and
    of nothing else: [f < g] holds exactly when [f.idx < g.idx], whatever the
    edge, generator, gen and status members hold; the order is irreflexive and
    transitive, and of two faces with distinct indices exactly one is below
    the other. *)
Theorem FaceProps_lt_is_idx_order :
  (forall f g : FaceProps, FaceProps_lt f g = true <-> (idx f < idx g)%N) /\
  (forall (f g : FaceProps) (e e' : HEEdge) (p p' : Point)
          (v v' : VoronoiGeneratorPtr) (s s' : VoronoiFaceStatus),
     FaceProps_lt (mkFaceProps (idx f) e p v s) (mkFaceProps (idx g) e' p' v' s')
     = FaceProps_lt f g) /\
  (forall f : FaceProps, FaceProps_lt f f = false) /\
  (forall f g h : FaceProps,
     FaceProps_lt f g = true -> FaceProps_lt g h = true -> FaceProps_lt f h = true) /\
  (forall f g : FaceProps,
     idx f <> idx g -> FaceProps_lt f g = negb (FaceProps_lt g f)).
Proof.
  unfold FaceProps_lt. repeat split.
  - by intros ?%N.ltb_lt.
  - by intros ?%N.ltb_lt.
  - intros f. apply N.ltb_irrefl.
  - intros f g h Hfg%N.ltb_lt Hgh%N.ltb_lt. apply N.ltb_lt. lia.
  - intros f g Hne.
    destruct (N.ltb_spec (idx f) (idx g)), (N.ltb_spec (idx g) (idx f));
      simpl; try reflexivity; lia.
Qed.

(** C10 (as amended): the body of the two-argument constructor assigns
    [next] and [face] and the body of the default constructor assigns
    nothing, so the twin of a freshly constructed record is as default
    construction made it: the null descriptor, the same whatever the storage
    held (only [face] is left as the storage held it).  It is not the
    descriptor of a partner edge: a lone edge built this way at a descriptor
    other than the null one breaks twin symmetry. *)
Theorem EdgeProps_constructors_default_twin :
  (forall n f (this : EdgeProps),
     next (EdgeProps_next_face n f this) = n /\
     face (EdgeProps_next_face n f this) = f /\
     twin (EdgeProps_next_face n f this) = twin (EdgeProps_default this)) /\
  (forall this : EdgeProps,
     next (EdgeProps_default this) = default_constructed /\
     twin (EdgeProps_default this) = default_constructed /\
     face (EdgeProps_default this) = face this) /\
  (forall n f (this this' : EdgeProps),
     twin (EdgeProps_next_face n f this) = twin (EdgeProps_next_face n f this')) /\
  (forall e n f (this : EdgeProps),
     e <> default_constructed ->
     ~ twin_symmetric {[ e := EdgeProps_next_face n f this ]} /\
     ~ twin_symmetric {[ e := EdgeProps_default this ]}).
Proof.
  split; [|split; [|split]].
  - by intros n f [].
  - by intros [].
  - by intros n f [] [].
  - intros e n f this Hne.
    split; apply lone_edge_not_symmetric; simpl; congruence.
Qed.

(** C8 (as amended): the twin of a half-edge is a reference stored in its
    record.  The three-argument constructor stores the reference it is given,
    and reading the twin of an edge returns the stored reference whatever the
    edge's own descriptor is. *)
Theorem EdgeProps_twin_is_stored :
  forall (n t : HEEdge) (f : HEFace) (this : EdgeProps),
    next (EdgeProps_next_twin_face n t f this) = n /\
    twin (EdgeProps_next_twin_face n t f this) = t /\
    face (EdgeProps_next_twin_face n t f this) = f /\
    forall (es : gmap HEEdge EdgeProps) (e : HEEdge),
      twin_of (<[ e := EdgeProps_next_twin_face n t f this ]> es) e = Some t.
Proof.
  intros n t f this. repeat split.
  intros es e. unfold twin_of. by rewrite lookup_insert_eq.
Qed.

(** C6 (as amended): a half-edge record carries three pieces of data, its
    next, twin and face references, and nothing else: the three members
    determine the record, so whatever is read off a record, a classification
    tag included, is a function of them. *)
Theorem EdgeProps_has_three_members :
  (forall p : EdgeProps, p = mkEdgeProps (next p) (twin p) (face p)) /\
  (forall (tag : EdgeProps -> EdgeType) (p q : EdgeProps),
     next p = next q -> twin p = twin q -> face p = face q -> tag p = tag q).
Proof.
  split; [apply EdgeProps_eta|].
  intros tag [] []; simpl; intros; by subst.
Qed.

(** C4 (as amended): a face record stores its index, one boundary half-edge,
    a generator that is a point, a separate pointer to a generator object,
    and a status.  The constructor stores the edge, the point and the status
    it is given and leaves the index and the pointer as the storage held
    them. *)
Theorem FaceProps_members :
  (forall r : FaceProps,
     r = mkFaceProps (idx r) (edge r) (generator r) (gen r) (status r)) /\
  (forall (e : HEEdge) (p : Point) (t : VoronoiFaceStatus) (this : FaceProps),
     edge (FaceProps_edge_generator_status e p t this) = e /\
     generator (FaceProps_edge_generator_status e p t this) = p /\
     status (FaceProps_edge_generator_status e p t this) = t /\
     idx (FaceProps_edge_generator_status e p t this) = idx this /\
     gen (FaceProps_edge_generator_status e p t this) = gen this).
Proof.
  split; [apply FaceProps_eta|]. by intros e p t [].
Qed.

(** ** Twin symmetry under the topology operations *)

Lemma twin_symmetric_lookup (es : gmap HEEdge EdgeProps) :
  twin_symmetric es <->
  forall e p, es !! e = Some p -> exists q, es !! twin p = Some q /\ twin q = e.
Proof.
  unfold twin_symmetric, twin_of. split.
  - intros Hsym e p Hp. specialize (Hsym e (mk_is_Some _ _ Hp)).
    rewrite Hp in Hsym. simpl in Hsym.
    destruct (es !! twin p) as [q|]; simplify_eq/=. by exists q.
  - intros Hsym e [p Hp]. destruct (Hsym e p Hp) as (q & Hq & Hback).
    rewrite Hp. simpl. rewrite Hq. simpl. by rewrite Hback.
Qed.

Lemma twin_symmetric_empty : twin_symmetric (∅ : gmap HEEdge EdgeProps).
Proof. intros e [p Hp]. by rewrite lookup_empty in Hp. Qed.

(** Overwriting a live record by one with the same twin member. *)
Lemma twin_symmetric_update (es : gmap HEEdge EdgeProps) e p p' :
  es !! e = Some p -> twin p' = twin p ->
  twin_symmetric es -> twin_symmetric (<[ e := p' ]> es).
Proof.
  intros He Htw Hsym. rewrite twin_symmetric_lookup in Hsym |- *.
  intros x px Hx.
  assert (exists px0, es !! x = Some px0 /\ twin px0 = twin px) as (px0 & Hx0 & Heq).
  { destruct (decide (e = x)) as [->|Hne].
    - rewrite lookup_insert_eq in Hx. simplify_eq. eauto.
    - rewrite lookup_insert_ne in Hx by done. eauto. }
  destruct (Hsym x px0 Hx0) as (q & Hq & Hback). rewrite <- Heq.
  destruct (decide (e = twin px0)) as [Het|Hne].
  - exists p'. rewrite <- Het, lookup_insert_eq. split; [done|]. rewrite Htw.
    rewrite <- Het in Hq. by simplify_eq.
  - exists q. by rewrite lookup_insert_ne.
Qed.

(** Adding two records at unused descriptors, each naming the other. *)
Lemma twin_symmetric_add_pair (es : gmap HEEdge EdgeProps) e1 e2 p1 p2 :
  es !! e1 = None -> es !! e2 = None -> e1 <> e2 ->
  twin p1 = e2 -> twin p2 = e1 ->
  twin_symmetric es -> twin_symmetric (<[ e2 := p2 ]> (<[ e1 := p1 ]> es)).
Proof.
  intros Hnew1 Hnew2 Hne Ht1 Ht2 Hsym. rewrite twin_symmetric_lookup in Hsym |- *.
  intros x px Hx.
  destruct (decide (x = e2)) as [->|Hx2].
  { rewrite lookup_insert_eq in Hx. simplify_eq. exists p1.
    rewrite lookup_insert_ne, lookup_insert_eq by done. done. }
  rewrite lookup_insert_ne in Hx by done.
  destruct (decide (x = e1)) as [->|Hx1].
  { rewrite lookup_insert_eq in Hx. simplify_eq. exists p2.
    by rewrite lookup_insert_eq. }
  rewrite lookup_insert_ne in Hx by done.
  destruct (Hsym x px Hx) as (q & Hq & Hback). exists q. split; [|done].
  rewrite !lookup_insert_ne; [done|congruence..].
Qed.

(** Removing a live edge together with its twin. *)
Lemma twin_symmetric_remove_pair (es : gmap HEEdge EdgeProps) e p :
  es !! e = Some p ->
  twin_symmetric es -> twin_symmetric (delete (twin p) (delete e es)).
Proof.
  intros He Hsym. rewrite twin_symmetric_lookup in Hsym |- *.
  intros x px Hx.
  apply lookup_delete_Some in Hx as [Hxt Hx].
  apply lookup_delete_Some in Hx as [Hxe Hx].
  destruct (Hsym x px Hx) as (q & Hq & Hback).
  destruct (Hsym e p He) as (q' & Hq' & Hback').
  exists q. split; [|done].
  rewrite !lookup_delete_ne; [done|..].
  - intros Heq. rewrite Heq, Hq in He. simplify_eq.
  - intros Heq. rewrite Heq, Hq in Hq'. simplify_eq.
Qed.

Lemma fresh_edge_unused (es : gmap HEEdge EdgeProps) (X : gset HEEdge) :
  es !! fresh (X ∪ dom es) = None.
Proof.
  apply not_elem_of_dom. intros Hin.
  apply (is_fresh (X ∪ dom es)). by apply elem_of_union_r.
Qed.

Lemma addEdgePair_twin_symmetric faceA faceB (slotA slotB : EdgeProps)
  (g g' : HEGraph) r :
  addEdgePair faceA faceB slotA slotB g = inr (r, g') ->
  twin_symmetric (edges g) -> twin_symmetric (edges g').
Proof.
  unfold addEdgePair. intros Heq Hsym. simplify_eq/=.
  apply twin_symmetric_add_pair; try done.
  - apply not_elem_of_dom, is_fresh.
  - apply fresh_edge_unused.
  - intros Heq.
    apply (is_fresh ({[fresh (dom (edges g))]} ∪ dom (edges g))).
    rewrite <- Heq at 1. apply elem_of_union_l. by apply elem_of_singleton.
Qed.

(** Every topology operation keeps twin symmetry. *)
Lemma perform_twin_symmetric {R : Type} (op : TopologyOp R) (g g' : HEGraph) r :
  perform op g = inr (r, g') ->
  twin_symmetric (edges g) -> twin_symmetric (edges g').
Proof.
  destruct op; simpl.
  - unfold addVertex. intros; by simplify_eq/=.
  - apply addEdgePair_twin_symmetric.
  - unfold addFace. intros; by simplify_eq/=.
  - unfold setNext. intros Heq Hsym.
    destruct (edges g !! e) as [p|] eqn:He; [|done].
    destruct (edges g !! n); simplify_eq/=.
    by apply twin_symmetric_update with p.
  - unfold setFace. intros Heq Hsym.
    destruct (edges g !! e) as [p|] eqn:He; [|done].
    destruct (faces g !! f); simplify_eq/=.
    by apply twin_symmetric_update with p.
  - unfold setStatus. intros Heq Hsym.
    destruct (faces g !! f); by simplify_eq/=.
  - unfold removeEdgePair. intros Heq Hsym.
    destruct (edges g !! e) as [p|] eqn:He; simplify_eq/=.
    by apply twin_symmetric_remove_pair.
  - unfold removeVertex. intros Heq Hsym.
    destruct (vertices g !! v); by simplify_eq/=.
  - unfold removeFace. intros Heq Hsym.
    destruct (faces g !! f); by simplify_eq/=.
  - intros; by simplify_eq/=.
Qed.

(** So does every builder, by induction on its steps. *)
Lemma run_twin_symmetric (b : Builder) : forall (g : HEGraph) newFace (g' : HEGraph),
  run b g = inr (newFace, g') ->
  twin_symmetric (edges g) -> twin_symmetric (edges g').
Proof.
  induction b as [newFace0|err|R op k IH]; intros g newFace g' Hrun Hsym; simpl in Hrun.
  - by simplify_eq.
  - done.
  - destruct (perform op g) as [err|[r g1]] eqn:Hop; [done|].
    eapply IH; [exact Hrun|]. by eapply perform_twin_symmetric.
Qed.

Lemma insertGenerators_twin_symmetric (steps : Generator -> Builder) gens :
  forall g0 g : HEGraph,
  insertGenerators steps g0 gens = Some g ->
  twin_symmetric (edges g0) -> twin_symmetric (edges g).
Proof.
  induction gens as [|newGenerator rest IH]; intros g0 g Hins Hsym; simpl in Hins.
  - by simplify_eq.
  - unfold insertGenerator in Hins.
    destruct (run (steps newGenerator) g0) as [err|[newFace g1]] eqn:Hrun.
    + destruct (recoverable err); [|done]. by eapply IH.
    + eapply IH; [exact Hins|]. simpl. by eapply run_twin_symmetric.
Qed.

(** C1: in the diagram that any sequence of insertions builds from the empty
    graph, following the twin reference of a live half-edge twice leads back
    to it: the twin is live and its twin is the edge. *)
Theorem twin_twin_after_insertions :
  forall (steps : Generator -> Builder) (gens : list Generator) (g : HEGraph),
    insertGenerators steps empty_graph gens = Some g ->
    forall e : HEEdge, is_Some (edges g !! e) ->
      twin_of (edges g) e ≫= twin_of (edges g) = Some e.
Proof.
  intros steps gens g Hins.
  change (twin_symmetric (edges g)).
  eapply insertGenerators_twin_symmetric; [exact Hins|].
  apply twin_symmetric_empty.
Qed.

(** ** Face status between insertions *)

Lemma reset_status_nonincident (g : HEGraph) : all_nonincident (faces (reset_status g)).
Proof.
  intros f r. simpl. rewrite lookup_fmap.
  destruct (faces g !! f); intros; by simplify_eq/=.
Qed.

Lemma insertGenerators_nonincident (steps : Generator -> Builder) gens :
  forall g0 g : HEGraph,
  insertGenerators steps g0 gens = Some g ->
  all_nonincident (faces g0) -> all_nonincident (faces g).
Proof.
  induction gens as [|newGenerator rest IH]; intros g0 g Hins Hall; simpl in Hins.
  - by simplify_eq.
  - unfold insertGenerator in Hins.
    destruct (run (steps newGenerator) g0) as [err|[newFace g1]] eqn:Hrun.
    + destruct (recoverable err); [|done]. by eapply IH.
    + eapply IH; [exact Hins|]. apply reset_status_nonincident.
Qed.

(** C2: a face status is INCIDENT or NONINCIDENT, and in the diagram as it
    stands between insertions (after any sequence of insertion calls on the
    empty graph) every face has status NONINCIDENT. *)
Theorem face_status_nonincident_between_insertions :
  (forall t : VoronoiFaceStatus, t = INCIDENT \/ t = NONINCIDENT) /\
  (forall (steps : Generator -> Builder) (gens : list Generator) (g : HEGraph),
     insertGenerators steps empty_graph gens = Some g ->
     forall (f : HEFace) (r : FaceProps),
       faces g !! f = Some r -> status r = NONINCIDENT).
Proof.
  split.
  - intros []; auto.
  - intros steps gens g Hins.
    change (all_nonincident (faces g)).
    eapply insertGenerators_nonincident; [exact Hins|].
    intros f r Hf. simpl in Hf. by rewrite lookup_empty in Hf.
Qed.

(** ** Further properties of the records *)

(** Overwriting the record of a live edge by one with another twin breaks
    the twin symmetry of an edge map. *)
Lemma twin_symmetric_other_twin (es : gmap HEEdge EdgeProps) e p p' :
  twin_symmetric es -> es !! e = Some p -> twin p' <> twin p ->
  ~ twin_symmetric (<[ e := p' ]> es).
Proof.
  intros Hsym He Hne Hsym'.
  rewrite twin_symmetric_lookup in Hsym, Hsym'.
  destruct (Hsym e p He) as (q0 & Hq0 & Hback0).
  destruct (Hsym' e p' (lookup_insert_eq _ _ _)) as (q & Hq & Hback).
  destruct (decide (e = twin p')) as [Het|Het].
  - assert (twin p <> e) as Hne0 by congruence.
    destruct (Hsym' (twin p) q0) as (q1 & Hq1 & Hback1).
    { by rewrite lookup_insert_ne by congruence. }
    rewrite Hback0, lookup_insert_eq in Hq1. simplify_eq.
  - rewrite lookup_insert_ne in Hq by done.
    destruct (Hsym (twin p') q Hq) as (q1 & Hq1 & Hback1).
    rewrite Hback, He in Hq1. simplify_eq.
Qed.

(** X1: constructing the record of a live, twinned edge anew with the
    two-argument constructor loses its twin (the member is default-constructed
    to the null descriptor) and breaks the twin symmetry of the edge map;
    constructing it anew with the three-argument constructor and its old twin
    keeps the symmetry, whatever next and face are given. *)
Theorem reconstructing_edge_record :
  forall (es : gmap HEEdge EdgeProps) (e n n' : HEEdge) (f f' : HEFace)
         (p this : EdgeProps),
    twin_symmetric es -> es !! e = Some p -> twin p <> default_constructed ->
    ~ twin_symmetric (<[ e := EdgeProps_next_face n f this ]> es) /\
    twin_symmetric (<[ e := EdgeProps_next_twin_face n' (twin p) f' this ]> es).
Proof.
  intros es e n n' f f' p this Hsym He Hnull. split.
  - apply twin_symmetric_other_twin with p; [done|done|]. simpl. congruence.
  - by apply twin_symmetric_update with p.
Qed.

(** X2: two records built by the three-argument constructor, each given the
    other's descriptor as twin and stored at unused descriptors, extend a
    twin-symmetric edge map to a twin-symmetric edge map. *)
Theorem mutual_twins_keep_symmetry :
  forall (es : gmap HEEdge EdgeProps) (e1 e2 n1 n2 : HEEdge) (f1 f2 : HEFace)
         (this1 this2 : EdgeProps),
    twin_symmetric es ->
    es !! e1 = None -> es !! e2 = None -> e1 <> e2 ->
    twin_symmetric
      (<[ e2 := EdgeProps_next_twin_face n2 e1 f2 this2 ]>
         (<[ e1 := EdgeProps_next_twin_face n1 e2 f1 this1 ]> es)).
Proof.
  intros es e1 e2 n1 n2 f1 f2 this1 this2 Hsym Hnew1 Hnew2 Hne.
  by apply twin_symmetric_add_pair.
Qed.

(** X3: [operator<] is a strict weak ordering whose equivalence is "same
    index": two faces are incomparable exactly when their indices are equal,
    incomparability is transitive, and a face is incomparable with a copy of
    itself that differs in status, so the order does not tell records of one
    index apart. *)
Theorem FaceProps_lt_strict_weak_order :
  (forall f g : FaceProps,
     FaceProps_lt f g = false /\ FaceProps_lt g f = false <-> idx f = idx g) /\
  (forall f g h : FaceProps,
     FaceProps_lt f g = false /\ FaceProps_lt g f = false ->
     FaceProps_lt g h = false /\ FaceProps_lt h g = false ->
     FaceProps_lt f h = false /\ FaceProps_lt h f = false) /\
  (forall (f : FaceProps) (t : VoronoiFaceStatus),
     t <> status f ->
     assign_status t f <> f /\
     FaceProps_lt f (assign_status t f) = false /\
     FaceProps_lt (assign_status t f) f = false).
Proof.
  unfold FaceProps_lt. split; [|split].
  - intros f g. rewrite !N.ltb_ge. lia.
  - intros f g h. rewrite !N.ltb_ge. lia.
  - intros f t Hne. simpl. rewrite N.ltb_irrefl. split; [|done].
    intros Heq. apply Hne. by rewrite <- Heq.
Qed.

(** X5: assigning the [next] or the [face] member of a live edge's record
    changes no edge's twin and keeps the edge map twin-symmetric. *)
Theorem relinking_keeps_twin_symmetry :
  forall (es : gmap HEEdge EdgeProps) (e n : HEEdge) (f : HEFace) (p : EdgeProps),
    twin_symmetric es -> es !! e = Some p ->
    (forall x, twin_of (<[ e := assign_next n p ]> es) x = twin_of es x) /\
    (forall x, twin_of (<[ e := assign_face f p ]> es) x = twin_of es x) /\
    twin_symmetric (<[ e := assign_next n p ]> es) /\
    twin_symmetric (<[ e := assign_face f p ]> es).
Proof.
  intros es e n f p Hsym He.
  assert (forall p', twin p' = twin p ->
            forall x, twin_of (<[ e := p' ]> es) x = twin_of es x) as Hsame.
  { intros p' Htw x. unfold twin_of. destruct (decide (e = x)) as [->|Hne].
    - rewrite lookup_insert_eq, He. simpl. by rewrite Htw.
    - by rewrite lookup_insert_ne. }
  split; [by apply Hsame|]. split; [by apply Hsame|].
  split; by apply twin_symmetric_update with p.
Qed.

(** X6: in a twin-symmetric edge map, assigning a different twin to one
    live edge's record alone always breaks twin symmetry: twins have to be
    reassigned in pairs. *)
Theorem retwinning_one_edge_breaks_symmetry :
  forall (es : gmap HEEdge EdgeProps) (e t : HEEdge) (p : EdgeProps),
    twin_symmetric es -> es !! e = Some p -> t <> twin p ->
    ~ twin_symmetric (<[ e := assign_twin t p ]> es).
Proof.
  intros es e t p Hsym He Hne Hsym'.
  rewrite twin_symmetric_lookup in Hsym, Hsym'.
  destruct (Hsym e p He) as (q0 & Hq0 & Hback0).
  destruct (Hsym' e (assign_twin t p) (lookup_insert_eq _ _ _)) as (q & Hq & Hback).
  simpl in Hq. destruct (decide (e = t)) as [<-|Het].
  - assert (twin p <> e) as Hne0 by congruence.
    destruct (Hsym' (twin p) q0) as (q1 & Hq1 & Hback1).
    { by rewrite lookup_insert_ne by congruence. }
    rewrite Hback0, lookup_insert_eq in Hq1. simplify_eq/=.
  - rewrite lookup_insert_ne in Hq by done.
    destruct (Hsym t q Hq) as (q1 & Hq1 & Hback1).
    rewrite Hback, He in Hq1. simplify_eq.
Qed.

End properties.

(** ** Stale handles of the arena *)

Section arena_properties.

Context {T : Type}.

Lemma outdated_not_valid (h : TaggedHandle) (a : list (Slot T)) :
  outdated h a -> arena_get h a = None.
Proof.
  intros (s & Hs & Hlt). unfold arena_get. rewrite Hs.
  destruct (decide (slot_generation s = generation h)) as [Heq|]; [lia|done].
Qed.

Lemma arena_get_Some (h : TaggedHandle) (a : list (Slot T)) (v : T) :
  arena_get h a = Some v ->
  exists s, a !! N.to_nat (slot_index h) = Some s /\
            slot_generation s = generation h /\ slot_record s = Some v.
Proof.
  unfold arena_get. destruct (a !! N.to_nat (slot_index h)) as [s|]; [|done].
  destruct (decide (slot_generation s = generation h)); [|done]. eauto.
Qed.

(** Writing a slot whose generation does not go down keeps a handle
    outdated. *)
Lemma outdated_insert (h : TaggedHandle) (a : list (Slot T)) i s s' :
  a !! i = Some s -> (slot_generation s <= slot_generation s')%N ->
  outdated h a -> outdated h (<[ i := s' ]> a).
Proof.
  intros Hi Hle (s0 & Hs0 & Hlt). unfold outdated.
  destruct (decide (i = N.to_nat (slot_index h))) as [->|Hne].
  - exists s'. rewrite list_lookup_insert_eq by (by eapply lookup_lt_Some).
    split; [done|]. rewrite Hi in Hs0. simplify_eq. lia.
  - exists s0. by rewrite list_lookup_insert_ne.
Qed.

Lemma arena_step_outdated (h : TaggedHandle) (op : ArenaOp T) (a : list (Slot T)) :
  outdated h a -> outdated h (arena_step op a).
Proof.
  intros Hout. destruct op as [v|h'|h' f]; simpl.
  - unfold arena_alloc.
    destruct (list_find _ a) as [[i s]|] eqn:Hfind; simpl.
    + apply list_find_Some in Hfind as (Hi & _ & _).
      by apply outdated_insert with s.
    + destruct Hout as (s0 & Hs0 & Hlt). exists s0.
      split; [|done]. by apply lookup_app_l_Some.
  - unfold arena_remove. destruct (arena_get h' a) as [v|] eqn:Hget; [|done].
    apply arena_get_Some in Hget as (s & Hs & Hgen & _). simpl.
    apply outdated_insert with s; [done| |done]. simpl. lia.
  - unfold arena_update. destruct (arena_get h' a) as [v|] eqn:Hget; [|done].
    apply arena_get_Some in Hget as (s & Hs & Hgen & _). simpl.
    apply outdated_insert with s; [done| |done]. simpl. lia.
Qed.

Lemma arena_run_outdated (h : TaggedHandle) (ops : list (ArenaOp T)) :
  forall a : list (Slot T), outdated h a -> outdated h (arena_run ops a).
Proof.
  induction ops as [|op rest IH]; intros a Hout; simpl; [done|].
  by apply IH, arena_step_outdated.
Qed.

Lemma arena_remove_outdated (h : TaggedHandle) (a a1 : list (Slot T)) :
  arena_remove h a = Some a1 -> outdated h a1.
Proof.
  unfold arena_remove. destruct (arena_get h a) as [v|] eqn:Hget; [|done].
  intros Heq. simplify_eq.
  apply arena_get_Some in Hget as (s & Hs & _ & _).
  exists (mkSlot (N.succ (generation h)) None).
  rewrite list_lookup_insert_eq by (by eapply lookup_lt_Some).
  split; [done|]. simpl. lia.
Qed.


End arena_properties.

(** * Checks at concrete descriptors *)

Example two_faces_edges :
  (fun g => map_to_list (twin <$> edges g)) <$> two_faces
  = Some [(2, 3); (3, 2); (1, 0); (0, 1)]%N.
Proof. vm_compute. reflexivity. Qed.

Example two_faces_status :
  (fun g => map_to_list (status <$> faces g)) <$> two_faces
  = Some [(1%N, NONINCIDENT); (0%N, NONINCIDENT)].
Proof. vm_compute. reflexivity. Qed.

(** Inside the call the face is marked: the builder's own view of the graph
    right after its first step. *)
Example status_incident_inside_call :
  match addFace 0%N (1, 2, 0)%Z INCIDENT raw_face (empty_graph : HEGraphN) with
  | inr (_, g) => map_to_list (status <$> faces g)
  | inl _ => []
  end = [(0%N, INCIDENT)].
Proof. vm_compute. reflexivity. Qed.

(** ** Claims about the diagram *)

(** C1 at the diagram [two_faces]: edge 2 is live and the twin of its twin
    is edge 2. *)
Lemma twin_twin_after_insertions_witness :
  exists g : HEGraphN,
    two_faces = Some g /\
    is_Some (edges g !! 2%N) /\
    twin_of (edges g) 2%N ≫= twin_of (edges g) = Some 2%N.
Proof.
  eexists. split; [vm_compute; reflexivity|].
  split; [vm_compute; eexists; reflexivity|].
  apply (twin_twin_after_insertions no_arcs three_calls).
  - vm_compute. reflexivity.
  - vm_compute. eexists. reflexivity.
Defined.

(** C5: the classifier follows the table for point and segment generators:
    a point/point pair is classified E1, point/segment-interior E3,
    point/segment-endpoint E2 and segment/segment E4, and these four rows are
    the only pairs classified E1 to E4. *)
Theorem classifyEdge_point_segment_rows :
  classifyEdge PointKind PointKind = inr E1 /\
  classifyEdge PointKind SegmentInterior = inr E3 /\
  classifyEdge PointKind SegmentEndpoint = inr E2 /\
  classifyEdge SegmentKind SegmentKind = inr E4 /\
  forall a b : GeneratorKind,
    (classifyEdge a b = inr E1 <-> a = PointKind /\ b = PointKind) /\
    (classifyEdge a b = inr E3 <-> a = PointKind /\ b = SegmentInterior) /\
    (classifyEdge a b = inr E2 <-> a = PointKind /\ b = SegmentEndpoint) /\
    (classifyEdge a b = inr E4 <-> a = SegmentKind /\ b = SegmentKind).
Proof.
  repeat (split; [reflexivity|]).
  intros a b. destruct a, b; simpl; intuition congruence.
Qed.

(** ** Claims about the records, refuted and amended *)

(** C4, refuted: if a face record held just its index, one boundary edge, one
    generator and the status, two records equal on these would be equal.
    They are not: the record also has the pointer [gen], which the
    constructor does not even assign. *)
Lemma FaceProps_not_one_generator :
  ~ (forall r1 r2 : FacePropsN,
       idx r1 = idx r2 -> edge r1 = edge r2 ->
       generator r1 = generator r2 -> status r1 = status r2 -> r1 = r2).
Proof.
  intros Hone.
  pose (r1 := FaceProps_edge_generator_status 7%N (1, 2, 0)%Z NONINCIDENT
                (mkFaceProps 0%N 0%N (0, 0, 0)%Z 0%N INCIDENT) : FacePropsN).
  pose (r2 := FaceProps_edge_generator_status 7%N (1, 2, 0)%Z NONINCIDENT
                (mkFaceProps 0%N 0%N (0, 0, 0)%Z 4096%N INCIDENT) : FacePropsN).
  specialize (Hone r1 r2 eq_refl eq_refl eq_refl eq_refl).
  apply (f_equal gen) in Hone. vm_compute in Hone. discriminate.
Qed.

(** C6, refuted: no classification tag is carried by a half-edge record
    beside next, twin and face: a tag read off the record cannot differ
    between two records equal on the three. *)
Lemma EdgeProps_no_classification_tag :
  ~ (exists (tag : EdgePropsN -> EdgeType) (p q : EdgePropsN),
       next p = next q /\ twin p = twin q /\ face p = face q /\ tag p <> tag q).
Proof.
  intros (tag & [n t f] & [n' t' f'] & Hn & Ht & Hf & Hne). simpl in *.
  apply Hne. by subst.
Qed.

(** C10, refuted: the twin of a record built by the two-argument
    constructor is not indeterminate.  If it were, every descriptor could be
    found there after [EdgeProps(1, 0)] for some storage; descriptor 5 is
    found for none, the twin being the null descriptor. *)
Lemma EdgeProps_twin_not_indeterminate :
  ~ (forall t : N, exists this : EdgePropsN,
       twin (EdgeProps_next_face 1%N 0%N this) = t).
Proof. intros Hany. destruct (Hany 5%N) as [this Htwin]. discriminate. Qed.

(** C8, refuted: the twin of an edge is not a function of the edge's own
    descriptor.  The same descriptor holds a record with twin 1 in one edge
    map and with twin 2 in another, both built by the three-argument
    constructor. *)
Lemma twin_not_handle_arithmetic :
  ~ (exists arith : N -> N,
       forall (es : gmap N EdgePropsN) (e : N) (p : EdgePropsN),
         es !! e = Some p -> twin p = arith e).
Proof.
  intros [arith Harith].
  pose proof (Harith {[ 0%N := EdgeProps_next_twin_face 1%N 1%N 0%N raw_edge ]}
                0%N _ (lookup_singleton_eq _ _)) as H1.
  pose proof (Harith {[ 0%N := EdgeProps_next_twin_face 1%N 2%N 0%N raw_edge ]}
                0%N _ (lookup_singleton_eq _ _)) as H2.
  simpl in H1, H2. congruence.
Qed.

(** ** Further properties at concrete descriptors *)

Lemma edge_pair_symmetric : twin_symmetric edge_pair.
Proof.
  apply twin_symmetric_add_pair; try done. apply twin_symmetric_empty.
Qed.

(** X2 at [edge_pair]: a second pair at the descriptors 2 and 3. *)
Lemma mutual_twins_keep_symmetry_witness :
  twin_symmetric
    (<[ 3%N := EdgeProps_next_twin_face 2%N 2%N 1%N raw_edge ]>
       (<[ 2%N := EdgeProps_next_twin_face 3%N 3%N 1%N raw_edge ]> edge_pair)).
Proof.
  apply (mutual_twins_keep_symmetry edge_pair 2%N 3%N 3%N 2%N 1%N 1%N raw_edge raw_edge).
  - exact edge_pair_symmetric.
  - vm_compute. reflexivity.
  - vm_compute. reflexivity.
  - discriminate.
Defined.

(** X5 at [edge_pair]: edge 0 is given itself as next. *)
Lemma relinking_keeps_twin_symmetry_witness :
  twin_symmetric
    (<[ 0%N := assign_next 0%N (EdgeProps_next_twin_face 1%N 1%N 0%N raw_edge) ]>
       edge_pair).
Proof.
  apply (relinking_keeps_twin_symmetry edge_pair 0%N 0%N 0%N
           (EdgeProps_next_twin_face 1%N 1%N 0%N raw_edge)).
  - exact edge_pair_symmetric.
  - vm_compute. reflexivity.
Defined.

(** X6 at [edge_pair]: edge 0 is given itself as twin while edge 1 still
    names edge 0. *)
Lemma retwinning_one_edge_breaks_symmetry_witness :
  ~ twin_symmetric
      (<[ 0%N := assign_twin 0%N (EdgeProps_next_twin_face 1%N 1%N 0%N raw_edge) ]>
         edge_pair).
Proof.
  apply (retwinning_one_edge_breaks_symmetry edge_pair 0%N 0%N
           (EdgeProps_next_twin_face 1%N 1%N 0%N raw_edge)).
  - exact edge_pair_symmetric.
  - vm_compute. reflexivity.
  - discriminate.
Defined.

(** X1 at [edge_pair_12]: the record of edge 1 is constructed anew. *)
Lemma reconstructing_edge_record_witness :
  ~ twin_symmetric (<[ 1%N := EdgeProps_next_face 2%N 0%N raw_edge ]> edge_pair_12) /\
  twin_symmetric (<[ 1%N := EdgeProps_next_twin_face 1%N 2%N 7%N raw_edge ]> edge_pair_12).
Proof.
  apply (reconstructing_edge_record edge_pair_12 1%N 2%N 1%N 0%N 7%N
           (EdgeProps_next_twin_face 2%N 2%N 0%N raw_edge) raw_edge).
  - apply twin_symmetric_add_pair; try done. apply twin_symmetric_empty.
  - vm_compute. reflexivity.
  - discriminate.
Defined.

(** ** The arena at concrete records *)

(** The slot of [first_handle] is handed out again, in its next generation,
    by the allocation that follows its removal. *)
Example slot_reused_in_next_generation :
  first_handle = mkTaggedHandle 0 0 /\
  (fun a1 => fst (arena_alloc (assign_face 9%N raw_edge) a1))
    <$> arena_remove first_handle used_once
  = Some (mkTaggedHandle 0 1).
Proof. vm_compute. split; reflexivity. Qed.

